(** * Porkbun dyndns client: a shallow embedding of pkg/api, pkg/porkbun and cmd/porkbun

    Strings of Go are Rocq [string]s (byte strings).  Every interaction of the
    program with the outside world (HTTP, DNS, logging, log.Fatalf) is an event
    of a trace threaded by a small writer monad with early exit: Go's [return]
    from [doDynDNSUpdate] and [log.Fatalf] end the computation. *)

From Stdlib Require Import String Ascii ZArith List Bool Lia.
Import ListNotations.
Open Scope string_scope.
Open Scope Z_scope.

(** ** Go's (value, error) results *)

Inductive result (A : Type) : Type :=
| Ok (a : A)
| Err (e : string).
Arguments Ok {A} a.
Arguments Err {A} e.

Definition is_err {A} (r : result A) : bool :=
  match r with Ok _ => false | Err _ => true end.

(** ** pkg/api: the wire types *)

Record Keys := { SecretAPIKey : string; APIKey : string }.

Record Status := { StatusField : string; Message : string }.

Record PingResponse := { PingStatus : Status; YourIP : string }.

Record Record := {
  ID : string;
  Name : string;
  Type_ : string;  (* Go field Type *)
  Content : string;
  TTL : string;
  Prio : string;
  Notes : string
}.

Record RecordsResponse := { RecordsStatus : Status; Records : list Record }.

Record CreateResponse := { CreateStatus : Status; CreateID : string }.

Record UpdateRequest := {
  UKeys : Keys;
  UName : string;
  UType : string;
  UContent : string;
  UTTL : string;
  UPrio : string
}.

Record EditResponse := { EditStatus : Status }.

(** The request bodies the client sends: PingRequest, RecordsRequest and
    UpdateRequest (the type parameter [Req] of [doRequest]). *)
Inductive Request :=
| RPing (k : Keys)
| RRecords (k : Keys)
| RUpdate (u : UpdateRequest).

(** [func (r *Record) String() string]:
    [fmt.Sprintf("%s %s %s %s %s (%s)", r.Name, r.Type, r.Content, r.TTL, r.Prio, r.ID)]. *)
Definition Record_String (r : Record) : string :=
  Name r ++ " " ++ Type_ r ++ " " ++ Content r ++ " " ++ TTL r ++ " " ++ Prio r
  ++ " (" ++ ID r ++ ")".

(** ** pkg/porkbun: client and configuration *)

Definition PorkbunApiV3Url := "https://api.porkbun.com/api/json/v3/".
Definition PorkbunApiV3Ipv4Url := "https://api-ipv4.porkbun.com/api/json/v3/".

Record ClientConfig := { Domain : string; CfgKeys : Keys }.

Record Client := { BaseURL : string; Config : ClientConfig }.

Definition NewClient (config : ClientConfig) (useIPV4 : bool) : Client :=
  {| BaseURL := if useIPV4 then PorkbunApiV3Ipv4Url else PorkbunApiV3Url;
     Config := config |}.

(** [c.url(elem...)]: the arguments of [url.JoinPath(c.BaseURL, elem...)].
    The base URL is one of the two constants, so JoinPath never fails and the
    [panic] branch is unreachable. *)
Definition URL := (string * list string)%type.

Definition url (c : Client) (elems : list string) : URL := (BaseURL c, elems).

(** ** The outside world *)

(** A response body: the bytes the server sent, and the error (if any) that
    reading them ends with. *)
Record Body := { body_bytes : string; body_err : option string }.

(** Outcome of [c.client.Do(r)] for a POST. *)
Inductive HttpResult :=
| TransportError (e : string)
| HttpResponse (StatusCode : Z) (StatusText : string) (body : Body).

(** Outcome of the check-URL GET: [http.NewRequestWithContext] rejects the URL,
    or [client.Do] returns a response (any status), or [client.Do] fails. *)
Inductive GetResult :=
| GetBadRequest (e : string)
| GetResponse (StatusText : string) (nbytes : Z)
| GetError (e : string).

(** The environment of a run: the remote service, the check URL, the system
    resolver ([net.LookupHost]) and [json.Decoder.Decode] on the three
    response types. *)
Record World := {
  http_post : URL -> Request -> HttpResult;
  http_get : string -> GetResult;
  lookup_host : string -> result (list string);
  dec_ping : Body -> result PingResponse;
  dec_records : Body -> result RecordsResponse;
  dec_create : Body -> result CreateResponse;
  dec_edit : Body -> result EditResponse
}.

(** Observable events, in order. *)
Inductive Event :=
| EvGet (u : string)               (* client.Do of the check-URL GET *)
| EvPost (u : URL) (req : Request) (* c.client.Do of the POST in doRequest *)
| EvLookup (host : string)         (* net.LookupHost *)
| EvLog (msg : string).            (* log.Printf of the record listing *)

(** ** A writer monad with Go's early exits *)

Inductive Exit (A : Type) : Type :=
| Continue (a : A)
| Return          (* [return] from the enclosing Go function *)
| Fatal (msg : string).  (* [log.Fatalf]: the process exits *)
Arguments Continue {A} a.
Arguments Return {A}.
Arguments Fatal {A} msg.

Definition M (A : Type) := list Event -> list Event * Exit A.

Definition ret {A} (a : A) : M A := fun t => (t, Continue a).

Definition bind {A B} (m : M A) (f : A -> M B) : M B :=
  fun t =>
    let '(t', r) := m t in
    match r with
    | Continue a => f a t'
    | Return => (t', Return)
    | Fatal e => (t', Fatal e)
    end.

Definition emit (e : Event) : M unit := fun t => ((t ++ [e])%list, Continue tt).

Definition go_return {A} : M A := fun t => (t, Return).

Definition fatalf {A} (msg : string) : M A := fun t => (t, Fatal msg).

(** A call of a Go function whose body may [return] early. *)
Definition call (m : M unit) : M unit :=
  fun t =>
    let '(t', r) := m t in
    match r with
    | Return => (t', Continue tt)
    | r' => (t', r')
    end.

Notation "x <- m ;; f" := (bind m (fun x => f))
  (at level 61, m at next level, right associativity).
Notation "m ;; f" := (bind m (fun _ => f))
  (at level 61, right associativity).

(** The remote writes of a trace: POSTs to dns/create or dns/editByNameType. *)
Definition is_write (e : Event) : bool :=
  match e with
  | EvPost (_, p :: _) _ => String.eqb p "dns/editByNameType" || String.eqb p "dns/create"
  | _ => false
  end.

Definition writes (t : list Event) : list Event := filter is_write t.

(** [strings.Contains(s, sub)]. *)
Fixpoint contains (sub s : string) : bool :=
  match s with
  | EmptyString => String.prefix sub s
  | String _ s' => String.prefix sub s || contains sub s'
  end.

(** ** Go's net.ParseIP and IP.To4

    [net.ParseIP(s)] is [netip.ParseAddr(s)] made into a 16-byte slice
    ([Addr.As16]), or nil when parsing fails or a zone is present.  The parser
    below follows netip's [ParseAddr], [parseIPv4] and [parseIPv6] over the
    bytes of the string. *)
Module GoNet.
Local Open Scope list_scope.

Inductive Addr :=
| AddrV4 (b : list Z)
| AddrV6 (b : list Z) (zone : string).

Definition code (c : ascii) : Z := Z.of_nat (nat_of_ascii c).

Definition is_digit (c : ascii) : bool := (48 <=? code c) && (code c <=? 57).

(** The loop of [parseIPv4]: [prev] is [s[i-1]] ([None] when [i == 0]). *)
Fixpoint parseIPv4_loop (prev : option ascii) (cs : list ascii) (fields : list Z)
    (val pos digLen : Z) : result (list Z * Z * Z) :=
  match cs with
  | [] => Ok (fields, val, pos)
  | c :: rest =>
      if is_digit c then
        if (digLen =? 1) && (val =? 0) then Err "IPv4 field has octet with leading zero"
        else
          let val' := val * 10 + (code c - 48) in
          if val' >? 255 then Err "IPv4 field has value >255"
          else parseIPv4_loop (Some c) rest fields val' pos (digLen + 1)
      else if Ascii.eqb c "." then
        if match prev with None => true | Some p => Ascii.eqb p "." end
           || match rest with [] => true | _ => false end
        then Err "IPv4 field must have at least one digit"
        else if pos =? 3 then Err "IPv4 address too long"
        else parseIPv4_loop (Some c) rest (fields ++ [val]) 0 (pos + 1) 0
      else Err "unexpected character"
  end.

(** [parseIPv4], returning the four octets. *)
Definition parseIPv4 (s : list ascii) : result (list Z) :=
  match parseIPv4_loop None s [] 0 0 0 with
  | Err e => Err e
  | Ok (fields, val, pos) =>
      if pos <? 3 then Err "IPv4 address too short" else Ok (fields ++ [val])
  end.

Definition hex_val (c : ascii) : option Z :=
  let n := code c in
  if (48 <=? n) && (n <=? 57) then Some (n - 48)
  else if (97 <=? n) && (n <=? 102) then Some (n - 97 + 10)
  else if (65 <=? n) && (n <=? 70) then Some (n - 65 + 10)
  else None.

(** The inner loop of [parseIPv6] reading one hex group: the number of
    digits [off], their value [acc], and [s[off:]]. *)
Fixpoint hex_group (s : list ascii) (off acc : Z) : result (Z * Z * list ascii) :=
  match s with
  | [] => Ok (off, acc, [])
  | c :: rest =>
      match hex_val c with
      | None => Ok (off, acc, s)
      | Some d =>
          let acc' := Z.shiftl acc 4 + d in
          if off >? 3 then Err "each group must have 4 or less digits"
          else if acc' >? 65535 then Err "IPv6 field has value >=2^16"
          else hex_group rest (off + 1) acc'
      end
  end.

(** The outer loop of [parseIPv6] ([for i < 16]); the bytes [ip[0:i]] are
    kept as a list of length [i].  Every round adds 2 or 4 to [i], so 8 rounds
    reach [i >= 16]: the fuel never runs out before the loop ends. *)
Fixpoint parseIPv6_loop (fuel : nat) (i : Z) (s : list ascii) (ip : list Z)
    (ellipsis : Z) : result (Z * list ascii * list Z * Z) :=
  match fuel with
  | O => Ok (i, s, ip, ellipsis)
  | S fuel' =>
      if negb (i <? 16) then Ok (i, s, ip, ellipsis) else
      match hex_group s 0 0 with
      | Err e => Err e
      | Ok (off, acc, rest) =>
          if off =? 0 then Err "each colon-separated field must have at least one digit" else
          match rest with
          | c :: _ =>
              if Ascii.eqb c "." then
                if (ellipsis <? 0) && negb (i =? 12) then
                  Err "embedded IPv4 address must replace the final 2 fields of the address"
                else if i + 4 >? 16 then
                  Err "too many hex fields to fit an embedded IPv4 at the end of the address"
                else
                  match parseIPv4 s with
                  | Err e => Err e
                  | Ok ip4 => Ok (i + 4, [], ip ++ ip4, ellipsis)
                  end
              else
                let ip' := ip ++ [Z.shiftr acc 8; Z.land acc 255] in
                let i' := i + 2 in
                if negb (Ascii.eqb c ":") then Err "unexpected character, want colon"
                else
                  match rest with
                  | [_] => Err "colon must be followed by more characters"
                  | _ :: c2 :: rest'' =>
                      if Ascii.eqb c2 ":" then
                        if ellipsis >=? 0 then Err "multiple :: in address"
                        else match rest'' with
                             | [] => Ok (i', [], ip', i')
                             | _ => parseIPv6_loop fuel' i' rest'' ip' i'
                             end
                      else parseIPv6_loop fuel' i' (c2 :: rest'') ip' ellipsis
                  | [] => Err "unreachable"
                  end
          | [] => Ok (i + 2, [], ip ++ [Z.shiftr acc 8; Z.land acc 255], ellipsis)
          end
      end
  end.

(** [bytealg.IndexByteString(s, '%')] and the split into address and zone. *)
Fixpoint split_zone (s : list ascii) : list ascii * option (list ascii) :=
  match s with
  | [] => ([], None)
  | c :: rest =>
      if Ascii.eqb c "%" then ([], Some rest)
      else let '(a, z) := split_zone rest in (c :: a, z)
  end.

Definition parseIPv6 (inp : list ascii) : result Addr :=
  let '(s, z) := split_zone inp in
  match z with
  | Some [] => Err "zone must be a non-empty string"
  | _ =>
    let zone := match z with Some zs => string_of_list_ascii zs | None => "" end in
    let '(ellipsis, s, only) :=
      match s with
      | c1 :: c2 :: rest =>
          if Ascii.eqb c1 ":" && Ascii.eqb c2 ":" then
            (0, rest, match rest with [] => true | _ => false end)
          else (-1, s, false)
      | _ => (-1, s, false)
      end in
    if only then Ok (AddrV6 (repeat 0 16) zone) else
    match parseIPv6_loop 8 0 s [] ellipsis with
    | Err e => Err e
    | Ok (i, s, ip, ellipsis) =>
        match s with
        | _ :: _ => Err "trailing garbage after address"
        | [] =>
          if i <? 16 then
            if ellipsis <? 0 then Err "address string too short"
            else
              let n := 16 - i in
              Ok (AddrV6 (firstn (Z.to_nat ellipsis) ip ++ repeat 0 (Z.to_nat n)
                          ++ skipn (Z.to_nat ellipsis) ip) zone)
          else if ellipsis >=? 0 then Err "the :: must expand to at least one field of zeros"
          else Ok (AddrV6 ip zone)
        end
    end
  end.

(** [netip.ParseAddr]: the first '.', ':' or '%' decides the family. *)
Fixpoint ParseAddr_scan (cs s : list ascii) : result Addr :=
  match cs with
  | [] => Err "unable to parse IP"
  | c :: rest =>
      if Ascii.eqb c "." then
        match parseIPv4 s with Ok b => Ok (AddrV4 b) | Err e => Err e end
      else if Ascii.eqb c ":" then parseIPv6 s
      else if Ascii.eqb c "%" then Err "missing IPv6 address"
      else ParseAddr_scan rest s
  end.

Definition ParseAddr (s : string) : result Addr :=
  let cs := list_ascii_of_string s in ParseAddr_scan cs cs.

Definition As16 (a : Addr) : list Z :=
  match a with
  | AddrV4 b => repeat 0 10 ++ [255; 255] ++ b
  | AddrV6 b _ => b
  end.

Definition Zone (a : Addr) : string :=
  match a with AddrV4 _ => "" | AddrV6 _ z => z end.

(** [net.ParseIP]; [None] is Go's nil. *)
Definition ParseIP (s : string) : option (list Z) :=
  match ParseAddr s with
  | Ok a => if String.eqb (Zone a) "" then Some (As16 a) else None
  | Err _ => None
  end.

(** [IP.To4]. *)
Definition To4 (ip : list Z) : option (list Z) :=
  if Nat.eqb (length ip) 4 then Some ip
  else if Nat.eqb (length ip) 16
          && forallb (Z.eqb 0) (firstn 10 ip)
          && (nth 10 ip 0 =? 255) && (nth 11 ip 0 =? 255)
  then Some (skipn 12 ip)
  else None.

End GoNet.


(** ** pkg/porkbun: [doRequest] and the four operations *)

(** [io.ReadAll(response.Body)]. *)
Definition ReadAll (b : Body) : result string :=
  match body_err b with
  | None => Ok (body_bytes b)
  | Some e => Err e
  end.

(** What [doRequest] returns once the POST has been sent.  Encoding the
    request cannot fail (the request types hold only strings), and
    [http.NewRequestWithContext] gets the method POST and a URL built by
    [url.JoinPath], so neither error branch before [client.Do] is taken. *)
Definition request_result {Resp} (decode : Body -> result Resp) (w : World)
    (u : URL) (req : Request) : result Resp :=
  match http_post w u req with
  | TransportError e => Err ("POST failed: " ++ e)
  | HttpResponse code status body =>
      if negb (code =? 200) then
        match ReadAll body with
        | Err e => Err ("response status " ++ status
                        ++ " (could not read response body: " ++ e ++ ")")
        | Ok b => Err ("response status " ++ status ++ ". Body: " ++ b ++ ")")
        end
      else
        match decode body with
        | Err e => Err ("cannot unmarshal response: " ++ e)
        | Ok r => Ok r
        end
  end.

Definition doRequest {Resp} (decode : Body -> result Resp) (w : World)
    (u : URL) (req : Request) : M (result Resp) :=
  emit (EvPost u req) ;;
  ret (request_result decode w u req).

Definition Ping_url (c : Client) : URL := url c ["ping"].
Definition Ping_req (c : Client) : Request := RPing (CfgKeys (Config c)).

Definition Ping (w : World) (c : Client) : M (result PingResponse) :=
  doRequest (dec_ping w) w (Ping_url c) (Ping_req c).

Definition CreateA (w : World) (c : Client) (subdomain ipv4Address : string)
    : M (result CreateResponse) :=
  let req := {| UKeys := CfgKeys (Config c); UName := subdomain; UType := "A";
                UContent := ipv4Address; UTTL := ""; UPrio := "" |} in
  doRequest (dec_create w) w (url c ["dns/create"]) (RUpdate req).

Definition EditAllA_url (c : Client) (subdomain : string) : URL :=
  if String.eqb subdomain "" then url c ["dns/editByNameType"; Domain (Config c); "A"]
  else url c ["dns/editByNameType"; Domain (Config c); "A"; subdomain].

Definition EditAllA_req (c : Client) (ipv4Address : string) : Request :=
  RUpdate {| UKeys := CfgKeys (Config c); UName := ""; UType := "";
             UContent := ipv4Address; UTTL := ""; UPrio := "" |}.

Definition EditAllA (w : World) (c : Client) (subdomain ipv4Address : string)
    : M (result EditResponse) :=
  doRequest (dec_edit w) w (EditAllA_url c subdomain) (EditAllA_req c ipv4Address).

Definition RetrieveAll_url (c : Client) : URL := url c ["dns/retrieve"; Domain (Config c)].
Definition RetrieveAll_req (c : Client) : Request := RRecords (CfgKeys (Config c)).

Definition RetrieveAll (w : World) (c : Client) : M (result RecordsResponse) :=
  doRequest (dec_records w) w (RetrieveAll_url c) (RetrieveAll_req c).

(** ** cmd/porkbun *)

(** [recordExists(records, typ, name, content)]. *)
Fixpoint recordExists (records : list Record) (typ name content : string) : bool :=
  match records with
  | [] => false
  | r :: rs =>
      if negb (String.eqb (Type_ r) typ) then recordExists rs typ name content
      else if String.eqb (Name r) name && String.eqb (Content r) content then true
      else recordExists rs typ name content
  end.

Definition dotjoin (subdom domain : string) : string :=
  if String.eqb subdom "" then domain else subdom ++ "." ++ domain.

(** The command-line flags read by [doDynDNSUpdate]. *)
Record DynFlags := { ddSubdomain : string; ddCheckURL : string }.

(** [ip == nil || ip.To4() == nil] on [ip := net.ParseIP(currentIP)]. *)
Definition not_ipv4 (currentIP : string) : bool :=
  match GoNet.ParseIP currentIP with
  | None => true
  | Some ip => match GoNet.To4 ip with None => true | Some _ => false end
  end.

Definition doDynDNSUpdate (w : World) (fl : DynFlags) (client : Client)
    (records : list Record) : M unit :=
  (* Ultra-fast path: the check URL. *)
  (if negb (String.eqb (ddCheckURL fl) "") then
     match http_get w (ddCheckURL fl) with
     | GetBadRequest e => fatalf ("Cannot create GET request for " ++ ddCheckURL fl ++ ": " ++ e)
     | GetResponse _ _ => emit (EvGet (ddCheckURL fl)) ;; go_return
     | GetError _ => emit (EvGet (ddCheckURL fl))
     end
   else ret tt) ;;
  (* Get own IP. *)
  ping <- Ping w client ;;
  match ping with
  | Err e => fatalf ("Ping failed: " ++ e)
  | Ok ping =>
    let currentIP := YourIP ping in
    (* Fast path: the public DNS record. *)
    let domain := dotjoin (ddSubdomain fl) (Domain (Config client)) in
    emit (EvLookup domain) ;;
    match lookup_host w domain with
    | Err _ => fatalf "Please set up an A record before running in -dyndns mode"
    | Ok addrs =>
      if existsb (String.eqb currentIP) addrs then go_return else
      if recordExists records "A" domain currentIP then go_return else
      if not_ipv4 currentIP then fatalf ("Not a valid IPv4 address: " ++ currentIP) else
      r <- EditAllA w client (ddSubdomain fl) currentIP ;;
      match r with
      | Err e => fatalf ("Failed to update A record: " ++ e)
      | Ok _ => ret tt
      end
    end
  end.

(** [strings.Split(s, sep)] for a one-byte separator. *)
Fixpoint Split (s : string) (sep : ascii) : list string :=
  match s with
  | EmptyString => [""]
  | String c s' =>
      let rest := Split s' sep in
      if Ascii.eqb c sep then "" :: rest
      else match rest with
           | p :: ps => String c p :: ps
           | [] => [String c ""]
           end
  end.

(** [strings.Join(elems, sep)]. *)
Fixpoint Join (elems : list string) (sep : string) : string :=
  match elems with
  | [] => ""
  | [e] => e
  | e :: es => e ++ sep ++ Join es sep
  end.

Definition newline : string := String (ascii_of_nat 10) "".

Section PrintRecords.

(** Go's [strings.ToUpper]. *)
Variable ToUpper : string -> string.

(** The loop over [strings.Split( *printRecords, ",")] that fills
    [includeAll] and the set [include] (a list of its keys). *)
Fixpoint parse_include (pieces : list string) (includeAll : bool)
    (include : list string) : bool * list string :=
  match pieces with
  | [] => (includeAll, include)
  | incl :: ps =>
      if String.eqb incl "all" then parse_include ps true include
      else parse_include ps includeAll (ToUpper incl :: include)
  end.

Definition doPrintRecords (w : World) (client : Client) (printRecords : string)
    : M (list Record) :=
  let '(includeAll, include) := parse_include (Split printRecords ",") false [] in
  recordsResp <- RetrieveAll w client ;;
  match recordsResp with
  | Err e => fatalf ("RetrieveAll failed: " ++ e)
  | Ok recordsResp =>
      let records := Records recordsResp in
      let recordLines :=
        map Record_String
          (filter (fun r => includeAll || existsb (String.eqb (Type_ r)) include) records) in
      emit (EvLog ("Your records:" ++ newline ++ Join recordLines newline)) ;;
      ret records
  end.

(** [main] after the configuration has been read; the flags -print, -dyndns,
    -subdomain and -check-url are its arguments. *)
Definition main (w : World) (config : ClientConfig) (printRecords : string)
    (dyndns : bool) (fl : DynFlags) : M unit :=
  let client := NewClient config true in
  records <- (if negb (String.eqb printRecords "") then doPrintRecords w client printRecords
              else ret []) ;;
  if dyndns then call (doDynDNSUpdate w fl client records) else ret tt.

End PrintRecords.

(** [strings.ToUpper] on ASCII input (lower-case letters shifted, every other
    byte unchanged), as Go computes it on ASCII strings. *)
Fixpoint ascii_ToUpper (s : string) : string :=
  match s with
  | EmptyString => EmptyString
  | String c s' =>
      let n := nat_of_ascii c in
      String (if (97 <=? n)%nat && (n <=? 122)%nat then ascii_of_nat (n - 32) else c)
             (ascii_ToUpper s')
  end.

(** ** Properties *)

(** A dotted-quad IPv4 literal: four decimal numerals 0..255 without leading
    zeros, separated by dots (the inet_pton form). *)
Definition dec_digit (k : nat) : ascii := ascii_of_nat (48 + k).

Definition dec_digits (n : nat) : list ascii :=
  if (n <? 10)%nat then [dec_digit n]
  else if (n <? 100)%nat then [dec_digit (n / 10); dec_digit (n mod 10)]
  else [dec_digit (n / 100); dec_digit ((n / 10) mod 10); dec_digit (n mod 10)].

Definition ipv4_literal (s : string) : Prop :=
  exists a b c d : nat,
    (a < 256 /\ b < 256 /\ c < 256 /\ d < 256)%nat /\
    list_ascii_of_string s =
      (dec_digits a ++ "."%char :: dec_digits b ++ "."%char :: dec_digits c ++ "."%char :: dec_digits d)%list.

Section IPv4Bridge.
Import GoNet.

Lemma v4_field (n : nat) (prev : option ascii) (rest : list ascii) (fields : list Z) (pos : Z) :
  (n < 256)%nat ->
  parseIPv4_loop prev (dec_digits n ++ rest)%list fields 0 pos 0 =
  parseIPv4_loop (Some (dec_digit (n mod 10))) rest fields (Z.of_nat n) pos
    (Z.of_nat (length (dec_digits n))).
Proof.
  intros Hn.
  do 256 (destruct n as [|n]; [reflexivity|]).
  lia.
Qed.

Lemma v4_dot (p r : ascii) (rest : list ascii) (fields : list Z) (val pos dl : Z) :
  Ascii.eqb p "." = false -> (pos =? 3) = false ->
  parseIPv4_loop (Some p) ("."%char :: r :: rest) fields val pos dl =
  parseIPv4_loop (Some "."%char) (r :: rest) (fields ++ [val])%list 0 (pos + 1) 0.
Proof.
  intros Hp Hpos. simpl. rewrite Hp, Hpos. reflexivity.
Qed.

Lemma dec_digit_not_dot (n : nat) : Ascii.eqb (dec_digit (n mod 10)) "." = false.
Proof.
  assert (H : ((n mod 10)%nat < 10)%nat) by (apply Nat.mod_upper_bound; lia).
  unfold dec_digit.
  destruct (n mod 10)%nat as [|[|[|[|[|[|[|[|[|[|k]]]]]]]]]]; try reflexivity. lia.
Qed.

Lemma dec_digits_cons (n : nat) : exists x xs, dec_digits n = x :: xs.
Proof.
  unfold dec_digits.
  destruct (n <? 10)%nat; [|destruct (n <? 100)%nat]; eauto.
Qed.

Lemma scan_field (n : nat) (rest s : list ascii) :
  (n < 256)%nat -> ParseAddr_scan (dec_digits n ++ rest)%list s = ParseAddr_scan rest s.
Proof.
  intros Hn.
  do 256 (destruct n as [|n]; [reflexivity|]).
  lia.
Qed.

Lemma parseIPv4_literal (a b c d : nat) :
  (a < 256 /\ b < 256 /\ c < 256 /\ d < 256)%nat ->
  parseIPv4 (dec_digits a ++ "."%char :: dec_digits b ++ "."%char :: dec_digits c ++ "."%char :: dec_digits d)%list
  = Ok [Z.of_nat a; Z.of_nat b; Z.of_nat c; Z.of_nat d].
Proof.
  intros (Ha & Hb & Hc & Hd).
  unfold parseIPv4.
  rewrite v4_field by exact Ha.
  destruct (dec_digits_cons b) as (xb & xsb & Eb). rewrite Eb. cbn [app].
  rewrite v4_dot by (apply dec_digit_not_dot || reflexivity).
  rewrite (app_comm_cons xsb _ xb), <- Eb, v4_field by exact Hb.
  destruct (dec_digits_cons c) as (xc & xsc & Ec). rewrite Ec. cbn [app].
  rewrite v4_dot by (apply dec_digit_not_dot || reflexivity).
  rewrite (app_comm_cons xsc _ xc), <- Ec, v4_field by exact Hc.
  destruct (dec_digits_cons d) as (xd & xsd & Ed). rewrite Ed. cbn [app].
  rewrite v4_dot by (apply dec_digit_not_dot || reflexivity).
  rewrite <- Ed.
  replace (dec_digits d) with (dec_digits d ++ [])%list by apply app_nil_r.
  rewrite v4_field by exact Hd.
  reflexivity.
Qed.

(** Every dotted-quad literal passes the check [net.ParseIP(ip).To4() != nil]. *)
Lemma ipv4_literal_accepted (s : string) : ipv4_literal s -> not_ipv4 s = false.
Proof.
  intros (a & b & c & d & Hr & Hs).
  unfold not_ipv4, ParseIP, ParseAddr. rewrite Hs.
  rewrite scan_field by tauto. simpl ParseAddr_scan.
  rewrite parseIPv4_literal by exact Hr.
  reflexivity.
Qed.

End IPv4Bridge.

Lemma recordExists_iff (R : list Record) (typ name content : string) :
  recordExists R typ name content = true <->
  exists r, In r R /\ Type_ r = typ /\ Name r = name /\ Content r = content.
Proof.
  induction R as [|r R IH]; simpl.
  - split; [discriminate | intros (r & [] & _)].
  - destruct (String.eqb_spec (Type_ r) typ) as [Ht|Ht]; simpl.
    + destruct (String.eqb_spec (Name r) name) as [Hn|Hn];
      destruct (String.eqb_spec (Content r) content) as [Hc|Hc]; simpl.
      * split; [intros _; exists r; auto | reflexivity].
      * rewrite IH. split.
        -- intros (r' & Hin & H); eauto.
        -- intros (r' & [<-|Hin] & Ht' & Hn' & Hc'); [congruence | eauto].
      * rewrite IH. split.
        -- intros (r' & Hin & H); eauto.
        -- intros (r' & [<-|Hin] & Ht' & Hn' & Hc'); [congruence | eauto].
      * rewrite IH. split.
        -- intros (r' & Hin & H); eauto.
        -- intros (r' & [<-|Hin] & Ht' & Hn' & Hc'); [congruence | eauto].
    + rewrite IH. split.
      * intros (r' & Hin & H); eauto.
      * intros (r' & [<-|Hin] & Ht' & Hn' & Hc'); [congruence | eauto].
Qed.

(** C3: [recordExists R typ name content] is true exactly when some record of
    [R] has Type, Name and Content equal (as strings) to [typ], [name] and
    [content]; on the empty list it is false. *)
Theorem recordExists_spec (R : list Record) (typ name content : string) :
  (recordExists R typ name content = true <->
   exists r, In r R /\ Type_ r = typ /\ Name r = name /\ Content r = content) /\
  recordExists [] typ name content = false.
Proof.
  split; [apply recordExists_iff | reflexivity].
Qed.

(** C8: [dotjoin "" d = d], and [dotjoin s d = s ++ "." ++ d] for a non-empty
    [s]; in particular "" and "www" joined with "example.com". *)
Theorem dotjoin_spec (s d : string) :
  dotjoin "" d = d /\
  (s <> "" -> dotjoin s d = s ++ "." ++ d) /\
  dotjoin "" "example.com" = "example.com" /\
  dotjoin "www" "example.com" = "www.example.com".
Proof.
  unfold dotjoin. repeat split.
  intros Hs. destruct (String.eqb_spec s "") as [E|_]; [contradiction | reflexivity].
Qed.

Lemma dotjoin_spec_witness :
  "www" <> "" /\ dotjoin "www" "example.com" = "www" ++ "." ++ "example.com".
Proof.
  split; [discriminate|].
  apply (proj1 (proj2 (dotjoin_spec "www" "example.com"))). discriminate.
Defined.

(** The health check of a run fails or is not configured. *)
Definition check_falls_through (w : World) (fl : DynFlags) : Prop :=
  ddCheckURL fl = "" \/ exists e, http_get w (ddCheckURL fl) = GetError e.

(** The fully-qualified name that a run looks up. *)
Definition fqdn (fl : DynFlags) (c : Client) : string :=
  dotjoin (ddSubdomain fl) (Domain (Config c)).

Lemma check_step (w : World) (fl : DynFlags) (A : Type) (k : unit -> M A) (t : list Event) :
  check_falls_through w fl ->
  bind (if negb (String.eqb (ddCheckURL fl) "") then
          match http_get w (ddCheckURL fl) with
          | GetBadRequest e => fatalf ("Cannot create GET request for " ++ ddCheckURL fl ++ ": " ++ e)
          | GetResponse _ _ => emit (EvGet (ddCheckURL fl)) ;; go_return
          | GetError _ => emit (EvGet (ddCheckURL fl))
          end
        else ret tt) k t
  = k tt (if String.eqb (ddCheckURL fl) "" then t else (t ++ [EvGet (ddCheckURL fl)])%list).
Proof.
  intros [E | (e & E)].
  - rewrite E. reflexivity.
  - destruct (String.eqb_spec (ddCheckURL fl) "") as [E'|E'].
    + rewrite E'. reflexivity.
    + simpl. rewrite E. reflexivity.
Qed.

Lemma writes_app (t1 t2 : list Event) : writes (t1 ++ t2)%list = (writes t1 ++ writes t2)%list.
Proof. unfold writes. apply filter_app. Qed.

Lemma writes_check (fl : DynFlags) (t : list Event) :
  writes (if String.eqb (ddCheckURL fl) "" then t else (t ++ [EvGet (ddCheckURL fl)])%list)
  = writes t.
Proof.
  destruct (String.eqb (ddCheckURL fl) ""); [reflexivity|].
  rewrite writes_app. simpl. apply app_nil_r.
Qed.

Lemma existsb_eqb_false (x : string) (l : list string) :
  ~ In x l -> existsb (String.eqb x) l = false.
Proof.
  intros H. apply Bool.not_true_is_false. rewrite existsb_exists.
  intros (y & Hy & E). apply String.eqb_eq in E. subst. contradiction.
Qed.

Lemma existsb_eqb_true (x : string) (l : list string) :
  In x l -> existsb (String.eqb x) l = true.
Proof.
  intros H. apply existsb_exists. exists x. split; [exact H | apply String.eqb_refl].
Qed.

Ltac run_dyn :=
  unfold doDynDNSUpdate, Ping, EditAllA, doRequest, bind, ret, emit, go_return, fatalf; simpl.

(** C1: when the health check falls through, ping answers with the IP [ip],
    the lookup of the fully-qualified name succeeds without [ip], the snapshot
    has no A record (name, [ip]) and [ip] is a dotted-quad IPv4 literal, the run
    makes exactly one write: editByNameType for the configured domain, type A
    and the configured subdomain, with content [ip]. *)
Theorem dyndns_single_write (w : World) (fl : DynFlags) (c : Client)
    (records : list Record) (p : PingResponse) (addrs : list string) :
  check_falls_through w fl ->
  request_result (dec_ping w) w (Ping_url c) (Ping_req c) = Ok p ->
  lookup_host w (fqdn fl c) = Ok addrs ->
  ~ In (YourIP p) addrs ->
  ~ (exists r, In r records /\ Type_ r = "A" /\ Name r = fqdn fl c /\ Content r = YourIP p) ->
  ipv4_literal (YourIP p) ->
  writes (fst (doDynDNSUpdate w fl c records [])) =
  [EvPost (url c (["dns/editByNameType"; Domain (Config c); "A"]
                  ++ (if String.eqb (ddSubdomain fl) "" then [] else [ddSubdomain fl]))%list)
     (RUpdate {| UKeys := CfgKeys (Config c); UName := ""; UType := "";
                 UContent := YourIP p; UTTL := ""; UPrio := "" |})].
Proof.
  intros Hchk Hping Hlook Hnin Hnrec Hip.
  unfold doDynDNSUpdate. rewrite (check_step w fl _ _ [] Hchk).
  pose proof (writes_check fl []) as Ht0.
  set (t0 := if String.eqb (ddCheckURL fl) "" then [] else ([] ++ [EvGet (ddCheckURL fl)])%list) in *.
  unfold Ping, doRequest, bind, ret, emit. simpl.
  rewrite Hping. fold (fqdn fl c). rewrite Hlook.
  rewrite (existsb_eqb_false _ _ Hnin).
  assert (Hr : recordExists records "A" (fqdn fl c) (YourIP p) = false).
  { apply Bool.not_true_is_false. rewrite recordExists_iff. exact Hnrec. }
  rewrite Hr, (ipv4_literal_accepted _ Hip).
  unfold EditAllA, doRequest, bind, ret, emit, fatalf. simpl.
  destruct (request_result (dec_edit w) w (EditAllA_url c (ddSubdomain fl))
              (EditAllA_req c (YourIP p)));
  simpl; rewrite !writes_app, Ht0;
  unfold EditAllA_url, EditAllA_req, url;
  destruct (String.eqb (ddSubdomain fl) ""); reflexivity.
Qed.

(** C4: when a check URL is configured and its GET returns a response (of any
    status), the run's only event is that GET and it returns: no ping, no DNS
    lookup, no write. *)
Theorem dyndns_check_url_short_circuit (w : World) (fl : DynFlags) (c : Client)
    (records : list Record) (st : string) (n : Z) :
  ddCheckURL fl <> "" ->
  http_get w (ddCheckURL fl) = GetResponse st n ->
  doDynDNSUpdate w fl c records [] = ([EvGet (ddCheckURL fl)], Return).
Proof.
  intros Hne Hget. unfold doDynDNSUpdate.
  destruct (String.eqb_spec (ddCheckURL fl) "") as [E|_]; [contradiction|].
  simpl. rewrite Hget. reflexivity.
Qed.

(** C5: when the health check falls through, ping answers with [ip] and the
    lookup of the fully-qualified name returns [ip] among its addresses, the
    run returns (no-op) without any write. *)
Theorem dyndns_dns_matches_no_write (w : World) (fl : DynFlags) (c : Client)
    (records : list Record) (p : PingResponse) (addrs : list string) :
  check_falls_through w fl ->
  request_result (dec_ping w) w (Ping_url c) (Ping_req c) = Ok p ->
  lookup_host w (fqdn fl c) = Ok addrs ->
  In (YourIP p) addrs ->
  snd (doDynDNSUpdate w fl c records []) = Return /\
  writes (fst (doDynDNSUpdate w fl c records [])) = [].
Proof.
  intros Hchk Hping Hlook Hin.
  unfold doDynDNSUpdate. rewrite (check_step w fl _ _ [] Hchk).
  pose proof (writes_check fl []) as Ht0.
  set (t0 := if String.eqb (ddCheckURL fl) "" then [] else ([] ++ [EvGet (ddCheckURL fl)])%list) in *.
  unfold Ping, doRequest, bind, ret, emit, go_return. simpl.
  rewrite Hping. fold (fqdn fl c). rewrite Hlook, (existsb_eqb_true _ _ Hin).
  simpl. split; [reflexivity|].
  rewrite !writes_app, Ht0. reflexivity.
Qed.

(** ** Concrete environments *)

Definition demo_status : Status := {| StatusField := "SUCCESS"; Message := "" |}.

Definition demo_client : Client :=
  NewClient {| Domain := "example.com";
               CfgKeys := {| SecretAPIKey := "sk1"; APIKey := "pk1" |} |} true.

(** A service that answers every POST with 200 and a body that decodes; ping
    reports [ip], the resolver returns [addrs], the check URL answers [get]. *)
Definition demo_world (ip : string) (addrs : list string) (get : GetResult) : World := {|
  http_post := fun _ _ => HttpResponse 200 "200 OK" {| body_bytes := "{}"; body_err := None |};
  http_get := fun _ => get;
  lookup_host := fun _ => Ok addrs;
  dec_ping := fun _ => Ok {| PingStatus := demo_status; YourIP := ip |};
  dec_records := fun _ => Ok {| RecordsStatus := demo_status; Records := [] |};
  dec_create := fun _ => Ok {| CreateStatus := demo_status; CreateID := "1" |};
  dec_edit := fun _ => Ok {| EditStatus := demo_status |}
|}.

Definition demo_flags (checkURL : string) : DynFlags :=
  {| ddSubdomain := "www"; ddCheckURL := checkURL |}.

Definition demo_ping (ip : string) : PingResponse := {| PingStatus := demo_status; YourIP := ip |}.

Lemma dyndns_single_write_witness :
  check_falls_through (demo_world "1.2.3.4" ["5.6.7.8"] (GetError "")) (demo_flags "") /\
  ipv4_literal "1.2.3.4" /\
  writes (fst (doDynDNSUpdate (demo_world "1.2.3.4" ["5.6.7.8"] (GetError ""))
                 (demo_flags "") demo_client [] [])) =
  [EvPost (url demo_client ["dns/editByNameType"; "example.com"; "A"; "www"])
     (RUpdate {| UKeys := CfgKeys (Config demo_client); UName := ""; UType := "";
                 UContent := "1.2.3.4"; UTTL := ""; UPrio := "" |})].
Proof.
  assert (Hlit : ipv4_literal "1.2.3.4").
  { exists 1%nat, 2%nat, 3%nat, 4%nat. split; [lia | reflexivity]. }
  split; [left; reflexivity|]. split; [exact Hlit|].
  apply (dyndns_single_write (demo_world "1.2.3.4" ["5.6.7.8"] (GetError ""))
           (demo_flags "") demo_client [] (demo_ping "1.2.3.4") ["5.6.7.8"]).
  - left; reflexivity.
  - reflexivity.
  - reflexivity.
  - simpl. intros [H|[]]. discriminate.
  - intros (r & [] & _).
  - exact Hlit.
Defined.

Lemma dyndns_check_url_short_circuit_witness :
  doDynDNSUpdate (demo_world "1.2.3.4" [] (GetResponse "404 Not Found" 0))
    (demo_flags "http://example.com/") demo_client [] []
  = ([EvGet "http://example.com/"], Return).
Proof.
  apply (dyndns_check_url_short_circuit _ (demo_flags "http://example.com/") _ _ "404 Not Found" 0).
  - discriminate.
  - reflexivity.
Defined.

Lemma dyndns_dns_matches_no_write_witness :
  snd (doDynDNSUpdate (demo_world "1.2.3.4" ["1.2.3.4"] (GetError "timeout"))
         (demo_flags "http://example.com/") demo_client [] []) = Return /\
  writes (fst (doDynDNSUpdate (demo_world "1.2.3.4" ["1.2.3.4"] (GetError "timeout"))
         (demo_flags "http://example.com/") demo_client [] [])) = [].
Proof.
  apply (dyndns_dns_matches_no_write _ _ _ _ (demo_ping "1.2.3.4") ["1.2.3.4"]).
  - right. exists "timeout". reflexivity.
  - reflexivity.
  - reflexivity.
  - left. reflexivity.
Defined.
(** A run exits before the write step: the check URL answers or cannot be
    requested, ping fails, the lookup fails, or it returns the current IP, or
    the snapshot already has the A record, or the IP fails the IPv4 check. *)
Definition exits_before_write (w : World) (fl : DynFlags) (c : Client)
    (records : list Record) : Prop :=
  (ddCheckURL fl <> "" /\
   ((exists e, http_get w (ddCheckURL fl) = GetBadRequest e) \/
    (exists st n, http_get w (ddCheckURL fl) = GetResponse st n))) \/
  (exists e, request_result (dec_ping w) w (Ping_url c) (Ping_req c) = Err e) \/
  (exists p, request_result (dec_ping w) w (Ping_url c) (Ping_req c) = Ok p /\
     ((exists e, lookup_host w (fqdn fl c) = Err e) \/
      (exists addrs, lookup_host w (fqdn fl c) = Ok addrs /\
         (In (YourIP p) addrs \/
          recordExists records "A" (fqdn fl c) (YourIP p) = true \/
          not_ipv4 (YourIP p) = true)))).

Ltac dyn_cases :=
  repeat match goal with
  | |- context [match request_result ?d ?w ?u ?r with _ => _ end] =>
      destruct (request_result d w u r) eqn:?; simpl
  | |- context [match lookup_host ?w ?h with _ => _ end] =>
      destruct (lookup_host w h) eqn:?; simpl
  | |- context [existsb (String.eqb ?x) ?l] =>
      destruct (in_dec string_dec x l);
      [rewrite (existsb_eqb_true x l) by assumption
      |rewrite (existsb_eqb_false x l) by assumption]; simpl
  | |- context [if recordExists ?a ?b ?c ?d then _ else _] =>
      destruct (recordExists a b c d) eqn:?; simpl
  | |- context [if not_ipv4 ?x then _ else _] =>
      destruct (not_ipv4 x) eqn:?; simpl
  | |- context [String.eqb (ddSubdomain ?fl) ""] =>
      destruct (String.eqb (ddSubdomain fl) ""); simpl
  end.

Ltac exits_intro :=
  solve [ right; left; eexists; reflexivity
        | right; right; eexists; split; [reflexivity|];
          solve [ left; eexists; reflexivity
                | right; eexists; split; [reflexivity|];
                  solve [left; assumption | right; left; assumption | right; right; assumption] ] ].

Ltac exits_elim :=
  match goal with
  | H : _ \/ _ |- _ =>
      destruct H as [[Hne [[e' He]|[st' [n' He]]]]|[[e' He]|[p' [Hp' [[e' He]|[a' [Ha [Hin'|[Hr'|Hv']]]]]]]]];
      try congruence;
      repeat match goal with
             | H : Ok _ = Ok _ |- _ => injection H as H; subst
             end;
      try congruence; contradiction
  end.

Ltac dyn_after_ping :=
  unfold Ping, EditAllA, EditAllA_url, url, doRequest, bind, ret, emit, go_return, fatalf; simpl;
  dyn_cases;
  (split; intros H;
   [ try discriminate; exits_intro
   | try reflexivity; exfalso; exits_elim ]).

(** C2 (amended): the procedure keeps no state between runs, so each run,
    the second of two included, decides from its own environment alone: it
    makes no write exactly when it exits before the write step. *)
Theorem dyndns_no_write_iff (w : World) (fl : DynFlags) (c : Client) (records : list Record) :
  writes (fst (doDynDNSUpdate w fl c records [])) = [] <-> exits_before_write w fl c records.
Proof.
  unfold exits_before_write, fqdn, doDynDNSUpdate.
  destruct (String.eqb_spec (ddCheckURL fl) "") as [E|E].
  - rewrite E. simpl. dyn_after_ping.
  - simpl.
    destruct (http_get w (ddCheckURL fl)) as [e|st n|e] eqn:Hg; simpl.
    + split; [intros _; left; split; [exact E | eauto] | reflexivity].
    + split; [intros _; left; split; [exact E | eauto] | reflexivity].
    + dyn_after_ping.
Qed.

(** C2, counterexample: the health check is not configured, ping reports
    1.2.3.4, the resolver still answers 5.6.7.8 and no snapshot is taken (no
    -print).  The first run writes; nothing in the environment changes, and
    the second run writes again. *)
Lemma dyndns_rerun_writes_again :
  let w := demo_world "1.2.3.4" ["5.6.7.8"] (GetError "") in
  let first := fst (doDynDNSUpdate w (demo_flags "") demo_client [] []) in
  let second := fst (doDynDNSUpdate w (demo_flags "") demo_client [] []) in
  writes first <> [] /\ writes second <> [].
Proof.
  vm_compute. split; discriminate.
Qed.

Lemma dec_digits_head (n : nat) :
  (n < 256)%nat -> exists k xs, (k < 10)%nat /\ dec_digits n = dec_digit k :: xs.
Proof.
  intros Hn. unfold dec_digits.
  destruct (Nat.ltb_spec n 10); [|destruct (Nat.ltb_spec n 100)];
  eexists; eexists; (split; [|reflexivity]).
  - exact H.
  - apply Nat.Div0.div_lt_upper_bound. lia.
  - apply Nat.Div0.div_lt_upper_bound. lia.
Qed.

Lemma not_ipv4_literal_colon (s : string) :
  (exists rest, list_ascii_of_string s = ":"%char :: rest) -> ~ ipv4_literal s.
Proof.
  intros (rest & Hs) (a & b & c & d & Hr & Hs').
  rewrite Hs in Hs'.
  destruct (dec_digits_head a) as (k & xs & Hk & Ea); [tauto|].
  rewrite Ea in Hs'. simpl in Hs'. injection Hs' as Hk' _.
  unfold dec_digit in Hk'.
  destruct k as [|[|[|[|[|[|[|[|[|[|k]]]]]]]]]]; try discriminate. lia.
Qed.

(** C6 (evaluated at the failing input): the check [net.ParseIP(ip).To4()]
    rejects "300.1.1.1" and "::1", but accepts the IPv4-mapped IPv6 literal
    "::ffff:1.2.3.4", which is not a dotted-quad IPv4 literal; a run whose ping
    reports it writes it as the content of the A record. *)
Theorem dyndns_mapped_ipv6_written :
  not_ipv4 "300.1.1.1" = true /\
  not_ipv4 "::1" = true /\
  ~ ipv4_literal "::ffff:1.2.3.4" /\
  writes (fst (doDynDNSUpdate (demo_world "::ffff:1.2.3.4" ["5.6.7.8"] (GetError ""))
                 (demo_flags "") demo_client [] [])) =
  [EvPost (EditAllA_url demo_client "www") (EditAllA_req demo_client "::ffff:1.2.3.4")].
Proof.
  split; [reflexivity|]. split; [reflexivity|]. split.
  - apply not_ipv4_literal_colon. eexists. reflexivity.
  - vm_compute. reflexivity.
Qed.

(** ** The request helper *)

Lemma prefix_app (s t : string) : String.prefix s (s ++ t) = true.
Proof.
  induction s as [|a s IH]; simpl; [destruct t; reflexivity|].
  destruct (ascii_dec a a); [exact IH | contradiction].
Qed.

Lemma contains_prefix (s t : string) : contains s (s ++ t) = true.
Proof.
  destruct s as [|a s]; simpl.
  - destruct t; reflexivity.
  - destruct (ascii_dec a a); [|contradiction]. rewrite prefix_app. reflexivity.
Qed.

Lemma contains_app_l (x pre s : string) : contains x s = true -> contains x (pre ++ s) = true.
Proof.
  intros H. induction pre as [|a pre IH]; simpl; [exact H|].
  rewrite IH. apply orb_true_r.
Qed.

Lemma doRequest_run {Resp} (decode : Body -> result Resp) (w : World) (u : URL)
    (req : Request) (t : list Event) :
  doRequest decode w u req t = ((t ++ [EvPost u req])%list, Continue (request_result decode w u req)).
Proof. reflexivity. Qed.

(** C7 (amended): [doRequest] sends exactly one POST; it returns an error
    exactly when the transport fails, the status is not 200, or (at 200) the
    body does not decode; for a non-200 status the error names the status and
    holds the raw body when the body can be read, the read error otherwise. *)
Theorem doRequest_contract {Resp} (decode : Body -> result Resp) (w : World) (u : URL)
    (req : Request) (t : list Event) :
  doRequest decode w u req t = ((t ++ [EvPost u req])%list, Continue (request_result decode w u req)) /\
  (is_err (request_result decode w u req) = true <->
     (exists e, http_post w u req = TransportError e) \/
     (exists code st b, http_post w u req = HttpResponse code st b /\ code <> 200) \/
     (exists st b e, http_post w u req = HttpResponse 200 st b /\ decode b = Err e)) /\
  (forall code st b, http_post w u req = HttpResponse code st b -> code <> 200 ->
     exists e, request_result decode w u req = Err e /\ contains st e = true /\
       match body_err b with
       | None => contains (body_bytes b) e = true
       | Some re => contains re e = true
       end).
Proof.
  split; [reflexivity|]. split.
  - unfold request_result. destruct (http_post w u req) as [e|code st b] eqn:Hp.
    + simpl. split; [intros _; left; eauto | reflexivity].
    + destruct (Z.eqb_spec code 200) as [->|Hne]; simpl.
      * destruct (decode b) as [r|e] eqn:Hd; simpl.
        -- split; [discriminate|].
           intros [(e & [=])|[(code' & st' & b' & [= <- _ _] & Hc)|(st' & b' & e & [= _ <-] & Hd')]];
           [contradiction|congruence].
        -- split; [intros _; right; right; eauto | reflexivity].
      * destruct (ReadAll b); simpl; (split; [intros _; right; left; eauto | reflexivity]).
  - intros code st b Hp Hne. unfold request_result. rewrite Hp.
    destruct (Z.eqb_spec code 200) as [E|_]; [contradiction|].
    unfold ReadAll. destruct (body_err b) as [re|]; cbv beta iota delta [negb].
    + eexists. split; [reflexivity|]. split.
      * apply contains_app_l, contains_prefix.
      * apply contains_app_l, contains_app_l, contains_app_l, contains_prefix.
    + eexists. split; [reflexivity|]. split.
      * apply contains_app_l, contains_prefix.
      * apply contains_app_l, contains_app_l, contains_app_l, contains_prefix.
Qed.

(** A service that answers 500 and whose body breaks off while being read. *)
Definition broken_body_world : World := {|
  http_post := fun _ _ => HttpResponse 500 "500 Internal Server Error"
                            {| body_bytes := "quota exceeded"; body_err := Some "unexpected EOF" |};
  http_get := fun _ => GetError "";
  lookup_host := fun _ => Ok [];
  dec_ping := fun _ => Err "";
  dec_records := fun _ => Err "";
  dec_create := fun _ => Err "";
  dec_edit := fun _ => Err ""
|}.

(** C7, counterexample: on a 500 whose body cannot be read to the end, the
    error does not contain the body the server sent. *)
Lemma doRequest_non200_error_without_body :
  exists e, request_result (dec_ping broken_body_world) broken_body_world
              (Ping_url demo_client) (Ping_req demo_client) = Err e /\
            contains "quota exceeded" e = false.
Proof.
  eexists. split; [reflexivity | vm_compute; reflexivity].
Qed.

Lemma doRequest_contract_witness :
  exists e, request_result (dec_ping broken_body_world) broken_body_world
              (Ping_url demo_client) (Ping_req demo_client) = Err e /\
            contains "500 Internal Server Error" e = true /\ contains "unexpected EOF" e = true.
Proof.
  destruct (proj2 (proj2 (doRequest_contract (dec_ping broken_body_world) broken_body_world
              (Ping_url demo_client) (Ping_req demo_client) []))
              500 "500 Internal Server Error"
              {| body_bytes := "quota exceeded"; body_err := Some "unexpected EOF" |}
              eq_refl ltac:(discriminate)) as (e & He & Hs & Hb).
  exists e. split; [exact He|]. split; [exact Hs | exact Hb].
Defined.

(** ** Record listing *)

(** What C9 states: a record is listed when its Type is one of the
    comma-separated entries, or when "all" is one of them. *)
Definition claimed_listing (printRecords : string) (records : list Record) : string :=
  let set := Split printRecords "," in
  "Your records:" ++ newline ++
  Join (map Record_String
          (filter (fun r => existsb (String.eqb "all") set || existsb (String.eqb (Type_ r)) set)
             records)) newline.

(** What the code selects: some entry is "all", or some other entry,
    upper-cased, equals the record's Type. *)
Definition type_selected (ToUpper : string -> string) (printRecords : string) (r : Record) : bool :=
  let set := Split printRecords "," in
  existsb (String.eqb "all") set
  || existsb (fun incl => negb (String.eqb incl "all") && String.eqb (ToUpper incl) (Type_ r)) set.

Lemma parse_include_spec (ToUpper : string -> string) (ps : list string) (ia : bool)
    (inc : list string) (x : string) :
  fst (parse_include ToUpper ps ia inc) = ia || existsb (String.eqb "all") ps /\
  existsb (String.eqb x) (snd (parse_include ToUpper ps ia inc)) =
  existsb (String.eqb x) inc
  || existsb (fun incl => negb (String.eqb incl "all") && String.eqb (ToUpper incl) x) ps.
Proof.
  revert ia inc. induction ps as [|p ps IH]; intros ia inc; cbn [parse_include existsb fst snd].
  - rewrite !orb_false_r. split; reflexivity.
  - rewrite (String.eqb_sym "all" p).
    destruct (String.eqb_spec p "all") as [->|Hp]; cbn [negb andb orb].
    + destruct (IH true inc) as [H1 H2]. rewrite H1, H2. rewrite orb_true_r. split; reflexivity.
    + destruct (IH ia (ToUpper p :: inc)) as [H1 H2]. rewrite H1, H2. cbn [existsb].
      rewrite (String.eqb_sym x (ToUpper p)).
      split; [reflexivity|]. rewrite !orb_assoc. f_equal. apply orb_comm.
Qed.

Lemma doPrintRecords_run (ToUpper : string -> string) (w : World) (c : Client)
    (pr : string) (resp : RecordsResponse) (t : list Event) :
  request_result (dec_records w) w (RetrieveAll_url c) (RetrieveAll_req c) = Ok resp ->
  doPrintRecords ToUpper w c pr t =
  ((t ++ [EvPost (RetrieveAll_url c) (RetrieveAll_req c);
          EvLog ("Your records:" ++ newline ++
                 Join (map Record_String (filter (type_selected ToUpper pr) (Records resp)))
                   newline)])%list,
   Continue (Records resp)).
Proof.
  intros H. unfold doPrintRecords.
  destruct (parse_include ToUpper (Split pr ",") false []) as [ia inc] eqn:Ep.
  unfold RetrieveAll, doRequest, bind, ret, emit. cbv beta iota. rewrite H.
  cbv beta iota.
  assert (Hf : filter (fun r => ia || existsb (String.eqb (Type_ r)) inc) (Records resp)
               = filter (type_selected ToUpper pr) (Records resp)).
  { apply filter_ext. intros r. unfold type_selected.
    destruct (parse_include_spec ToUpper (Split pr ",") false [] (Type_ r)) as [H1 H2].
    rewrite Ep in H1, H2. cbn [fst snd existsb orb] in H1, H2. rewrite H1, H2. reflexivity. }
  rewrite Hf, <- app_assoc. reflexivity.
Qed.

(** C9 (amended): the listing mode makes one remote call, a retrieve, and no
    create or edit; it logs one line [name type content ttl priority (id)]
    per retrieved record, in order, whose Type equals an upper-cased entry of
    the comma-separated filter other than "all", or every record when some
    entry is exactly "all". *)
Theorem doPrintRecords_listing (ToUpper : string -> string) (w : World) (c : Client)
    (pr : string) (resp : RecordsResponse) :
  writes (fst (doPrintRecords ToUpper w c pr [])) = [] /\
  (request_result (dec_records w) w (RetrieveAll_url c) (RetrieveAll_req c) = Ok resp ->
   fst (doPrintRecords ToUpper w c pr []) =
   [EvPost (RetrieveAll_url c) (RetrieveAll_req c);
    EvLog ("Your records:" ++ newline ++
           Join (map Record_String (filter (type_selected ToUpper pr) (Records resp))) newline)]).
Proof.
  split.
  - unfold doPrintRecords.
    destruct (parse_include ToUpper (Split pr ",") false []) as [ia inc].
    unfold RetrieveAll, doRequest, bind, ret, emit, fatalf. cbv beta iota.
    destruct (request_result (dec_records w) w (RetrieveAll_url c) (RetrieveAll_req c));
    reflexivity.
  - intros H. rewrite (doPrintRecords_run ToUpper w c pr resp [] H). reflexivity.
Qed.

Definition rec_A : Record := {| ID := "42"; Name := "www.example.com"; Type_ := "A";
  Content := "1.2.3.4"; TTL := "600"; Prio := "0"; Notes := "" |}.

Definition listing_world : World := {|
  http_post := fun _ _ => HttpResponse 200 "200 OK" {| body_bytes := "{}"; body_err := None |};
  http_get := fun _ => GetError "";
  lookup_host := fun _ => Ok [];
  dec_ping := fun _ => Err "";
  dec_records := fun _ => Ok {| RecordsStatus := demo_status; Records := [rec_A] |};
  dec_create := fun _ => Err "";
  dec_edit := fun _ => Err ""
|}.

(** C9, counterexample: with [-print a] the A record is listed, although "A"
    is not among the entries {"a"}. *)
Lemma doPrintRecords_lowercase_filter :
  fst (doPrintRecords ascii_ToUpper listing_world demo_client "a" []) =
  [EvPost (RetrieveAll_url demo_client) (RetrieveAll_req demo_client);
   EvLog ("Your records:" ++ newline ++ "www.example.com A 1.2.3.4 600 0 (42)")] /\
  claimed_listing "a" [rec_A] = "Your records:" ++ newline.
Proof.
  split; vm_compute; reflexivity.
Qed.

Lemma doPrintRecords_listing_witness :
  fst (doPrintRecords ascii_ToUpper listing_world demo_client "a" []) =
  [EvPost (RetrieveAll_url demo_client) (RetrieveAll_req demo_client);
   EvLog ("Your records:" ++ newline ++
          Join (map Record_String (filter (type_selected ascii_ToUpper "a") [rec_A])) newline)].
Proof.
  apply (proj2 (doPrintRecords_listing ascii_ToUpper listing_world demo_client "a"
                  {| RecordsStatus := demo_status; Records := [rec_A] |})).
  reflexivity.
Defined.

(** C10: the listing returns every retrieved record, whatever the filter, and
    [main] hands that whole list to [doDynDNSUpdate] as its snapshot. *)
Theorem main_snapshot_unfiltered (ToUpper : string -> string) (w : World)
    (config : ClientConfig) (pr : string) (fl : DynFlags) (resp : RecordsResponse)
    (t : list Event) :
  pr <> "" ->
  request_result (dec_records w) w (RetrieveAll_url (NewClient config true))
    (RetrieveAll_req (NewClient config true)) = Ok resp ->
  snd (doPrintRecords ToUpper w (NewClient config true) pr t) = Continue (Records resp) /\
  main ToUpper w config pr true fl t =
  call (doDynDNSUpdate w fl (NewClient config true) (Records resp))
    (fst (doPrintRecords ToUpper w (NewClient config true) pr t)).
Proof.
  intros Hpr H.
  rewrite (doPrintRecords_run ToUpper w _ pr resp t H).
  split; [reflexivity|].
  unfold main. destruct (String.eqb_spec pr "") as [E|_]; [contradiction|].
  cbv beta iota delta [negb]. unfold bind at 1.
  rewrite (doPrintRecords_run ToUpper w _ pr resp t H). reflexivity.
Qed.

Lemma main_snapshot_unfiltered_witness :
  snd (doPrintRecords ascii_ToUpper listing_world demo_client "AAAA" []) = Continue [rec_A] /\
  main ascii_ToUpper listing_world (Config demo_client) "AAAA" true (demo_flags "") []
  = call (doDynDNSUpdate listing_world (demo_flags "") demo_client [rec_A])
      (fst (doPrintRecords ascii_ToUpper listing_world demo_client "AAAA" [])).
Proof.
  apply (main_snapshot_unfiltered ascii_ToUpper listing_world (Config demo_client) "AAAA"
           (demo_flags "") {| RecordsStatus := demo_status; Records := [rec_A] |} []).
  - discriminate.
  - reflexivity.
Defined.

(** ** Further properties of the update procedure *)

(** The check-URL GET of a run, when one is configured. *)
Definition check_events (fl : DynFlags) : list Event :=
  if String.eqb (ddCheckURL fl) "" then [] else [EvGet (ddCheckURL fl)].

(** The IP that ping reports ("" when ping fails). *)
Definition ping_ip (w : World) (c : Client) : string :=
  match request_result (dec_ping w) w (Ping_url c) (Ping_req c) with
  | Ok p => YourIP p
  | Err _ => ""
  end.

Definition prefix_of {A} (l1 l2 : list A) : Prop := exists l3, l2 = (l1 ++ l3)%list.

Lemma prefix_writes (l1 l2 : list Event) :
  prefix_of l1 l2 -> (length (writes l1) <= length (writes l2))%nat.
Proof.
  intros (l3 & ->). rewrite writes_app, length_app. lia.
Qed.

Lemma dyndns_trace_prefix (w : World) (fl : DynFlags) (c : Client) (records : list Record) :
  prefix_of (fst (doDynDNSUpdate w fl c records []))
    (check_events fl ++
     [EvPost (Ping_url c) (Ping_req c); EvLookup (fqdn fl c);
      EvPost (EditAllA_url c (ddSubdomain fl)) (EditAllA_req c (ping_ip w c))])%list.
Proof.
  unfold check_events, ping_ip, fqdn, doDynDNSUpdate.
  destruct (String.eqb_spec (ddCheckURL fl) "") as [E|E]; simpl;
  [| destruct (http_get w (ddCheckURL fl)); simpl; try (eexists; reflexivity)];
  unfold Ping, EditAllA, doRequest, bind, ret, emit, go_return, fatalf; simpl;
  dyn_cases; eexists; reflexivity.
Qed.

(** Every run performs its steps in the order of the code and each at most
    once: its events are a prefix of the check GET (when a check URL is set),
    the ping POST, the lookup of the fully-qualified name, and the edit POST
    for the pinged IP.  So a run makes at most one write, and never a create. *)
Theorem dyndns_event_order (w : World) (fl : DynFlags) (c : Client) (records : list Record) :
  prefix_of (fst (doDynDNSUpdate w fl c records []))
    (check_events fl ++
     [EvPost (Ping_url c) (Ping_req c); EvLookup (fqdn fl c);
      EvPost (EditAllA_url c (ddSubdomain fl)) (EditAllA_req c (ping_ip w c))])%list /\
  (length (writes (fst (doDynDNSUpdate w fl c records []))) <= 1)%nat.
Proof.
  pose proof (dyndns_trace_prefix w fl c records) as Hp.
  split; [exact Hp|].
  eapply Nat.le_trans; [apply prefix_writes, Hp|].
  rewrite writes_app. unfold check_events, EditAllA_url, url.
  destruct (String.eqb (ddCheckURL fl) ""), (String.eqb (ddSubdomain fl) ""); simpl; lia.
Qed.

Lemma check_step_events (w : World) (fl : DynFlags) (A : Type) (k : unit -> M A) :
  check_falls_through w fl ->
  bind (if negb (String.eqb (ddCheckURL fl) "") then
          match http_get w (ddCheckURL fl) with
          | GetBadRequest e => fatalf ("Cannot create GET request for " ++ ddCheckURL fl ++ ": " ++ e)
          | GetResponse _ _ => emit (EvGet (ddCheckURL fl)) ;; go_return
          | GetError _ => emit (EvGet (ddCheckURL fl))
          end
        else ret tt) k []
  = k tt (check_events fl).
Proof.
  intros H. rewrite (check_step w fl A k [] H). unfold check_events.
  destruct (String.eqb (ddCheckURL fl) ""); reflexivity.
Qed.

(** A failed ping aborts the run right after the ping request, with the
    message "Ping failed: " and the error; no lookup and no write follow. *)
Theorem dyndns_ping_failure_fatal (w : World) (fl : DynFlags) (c : Client)
    (records : list Record) (e : string) :
  check_falls_through w fl ->
  request_result (dec_ping w) w (Ping_url c) (Ping_req c) = Err e ->
  doDynDNSUpdate w fl c records [] =
  ((check_events fl ++ [EvPost (Ping_url c) (Ping_req c)])%list, Fatal ("Ping failed: " ++ e)).
Proof.
  intros Hchk Hping. unfold doDynDNSUpdate.
  rewrite (check_step_events w fl _ _ Hchk).
  unfold Ping, doRequest, bind, ret, emit, fatalf. cbv beta iota. rewrite Hping. reflexivity.
Qed.

(** A failed lookup of the fully-qualified name aborts the run after the
    lookup, asking for an A record to be set up; no write follows. *)
Theorem dyndns_lookup_failure_fatal (w : World) (fl : DynFlags) (c : Client)
    (records : list Record) (p : PingResponse) (e : string) :
  check_falls_through w fl ->
  request_result (dec_ping w) w (Ping_url c) (Ping_req c) = Ok p ->
  lookup_host w (fqdn fl c) = Err e ->
  doDynDNSUpdate w fl c records [] =
  ((check_events fl ++ [EvPost (Ping_url c) (Ping_req c); EvLookup (fqdn fl c)])%list,
   Fatal "Please set up an A record before running in -dyndns mode").
Proof.
  intros Hchk Hping Hl. unfold doDynDNSUpdate.
  rewrite (check_step_events w fl _ _ Hchk).
  unfold Ping, doRequest, bind, ret, emit, fatalf. cbv beta iota. rewrite Hping.
  cbv beta iota. fold (fqdn fl c). rewrite Hl, <- app_assoc. reflexivity.
Qed.

(** When no short-circuit applies and the pinged IP fails the check
    [net.ParseIP(ip).To4() != nil], the run aborts with "Not a valid IPv4
    address: " and the IP, after the lookup and before any write. *)
Theorem dyndns_invalid_ip_fatal (w : World) (fl : DynFlags) (c : Client)
    (records : list Record) (p : PingResponse) (addrs : list string) :
  check_falls_through w fl ->
  request_result (dec_ping w) w (Ping_url c) (Ping_req c) = Ok p ->
  lookup_host w (fqdn fl c) = Ok addrs ->
  ~ In (YourIP p) addrs ->
  recordExists records "A" (fqdn fl c) (YourIP p) = false ->
  not_ipv4 (YourIP p) = true ->
  doDynDNSUpdate w fl c records [] =
  ((check_events fl ++ [EvPost (Ping_url c) (Ping_req c); EvLookup (fqdn fl c)])%list,
   Fatal ("Not a valid IPv4 address: " ++ YourIP p)).
Proof.
  intros Hchk Hping Hl Hnin Hr Hv. unfold doDynDNSUpdate.
  rewrite (check_step_events w fl _ _ Hchk).
  unfold Ping, doRequest, bind, ret, emit, fatalf, go_return. cbv beta iota. rewrite Hping.
  cbv beta iota. fold (fqdn fl c). rewrite Hl, (existsb_eqb_false _ _ Hnin), Hr, Hv.
  rewrite <- app_assoc. reflexivity.
Qed.

(** When the run reaches the edit request, it ends normally if the edit
    succeeds and aborts with "Failed to update A record: " and the error if
    it fails; there is no retry. *)
Theorem dyndns_edit_outcome (w : World) (fl : DynFlags) (c : Client)
    (records : list Record) (p : PingResponse) (addrs : list string) :
  check_falls_through w fl ->
  request_result (dec_ping w) w (Ping_url c) (Ping_req c) = Ok p ->
  lookup_host w (fqdn fl c) = Ok addrs ->
  ~ In (YourIP p) addrs ->
  recordExists records "A" (fqdn fl c) (YourIP p) = false ->
  not_ipv4 (YourIP p) = false ->
  doDynDNSUpdate w fl c records [] =
  ((check_events fl ++ [EvPost (Ping_url c) (Ping_req c); EvLookup (fqdn fl c);
                        EvPost (EditAllA_url c (ddSubdomain fl)) (EditAllA_req c (YourIP p))])%list,
   match request_result (dec_edit w) w (EditAllA_url c (ddSubdomain fl)) (EditAllA_req c (YourIP p)) with
   | Err e => Fatal ("Failed to update A record: " ++ e)
   | Ok _ => Continue tt
   end).
Proof.
  intros Hchk Hping Hl Hnin Hr Hv. unfold doDynDNSUpdate.
  rewrite (check_step_events w fl _ _ Hchk).
  unfold Ping, EditAllA, doRequest, bind, ret, emit, fatalf, go_return. cbv beta iota. rewrite Hping.
  cbv beta iota. fold (fqdn fl c). rewrite Hl, (existsb_eqb_false _ _ Hnin), Hr, Hv.
  cbv beta iota. rewrite <- !app_assoc.
  destruct (request_result (dec_edit w) w (EditAllA_url c (ddSubdomain fl))
              (EditAllA_req c (YourIP p))); reflexivity.
Qed.

(** A service whose ping, resolver and edit answers are given; every POST is
    answered 200 and the check URL times out. *)
Definition test_world (ping : result PingResponse) (lookup : result (list string))
    (edit : result EditResponse) : World := {|
  http_post := fun _ _ => HttpResponse 200 "200 OK" {| body_bytes := "{}"; body_err := None |};
  http_get := fun _ => GetError "timeout";
  lookup_host := fun _ => lookup;
  dec_ping := fun _ => ping;
  dec_records := fun _ => Ok {| RecordsStatus := demo_status; Records := [] |};
  dec_create := fun _ => Err "";
  dec_edit := fun _ => edit
|}.

Definition edit_ok : result EditResponse := Ok {| EditStatus := demo_status |}.

Lemma dyndns_ping_failure_fatal_witness :
  doDynDNSUpdate (test_world (Err "unexpected EOF") (Ok []) edit_ok)
    (demo_flags "http://example.com/") demo_client [] [] =
  ([EvGet "http://example.com/"; EvPost (Ping_url demo_client) (Ping_req demo_client)],
   Fatal ("Ping failed: " ++ "cannot unmarshal response: unexpected EOF")).
Proof.
  apply (dyndns_ping_failure_fatal (test_world (Err "unexpected EOF") (Ok []) edit_ok)
           (demo_flags "http://example.com/") demo_client []).
  - right. eexists. reflexivity.
  - reflexivity.
Defined.

Lemma dyndns_lookup_failure_fatal_witness :
  doDynDNSUpdate (test_world (Ok (demo_ping "1.2.3.4")) (Err "no such host") edit_ok)
    (demo_flags "") demo_client [] [] =
  ([EvPost (Ping_url demo_client) (Ping_req demo_client); EvLookup "www.example.com"],
   Fatal "Please set up an A record before running in -dyndns mode").
Proof.
  apply (dyndns_lookup_failure_fatal (test_world (Ok (demo_ping "1.2.3.4")) (Err "no such host") edit_ok)
           (demo_flags "") demo_client [] (demo_ping "1.2.3.4")
           "no such host").
  - left. reflexivity.
  - reflexivity.
  - reflexivity.
Defined.

Lemma dyndns_invalid_ip_fatal_witness :
  doDynDNSUpdate (test_world (Ok (demo_ping "300.1.1.1")) (Ok ["5.6.7.8"]) edit_ok)
    (demo_flags "") demo_client [] [] =
  ([EvPost (Ping_url demo_client) (Ping_req demo_client); EvLookup "www.example.com"],
   Fatal ("Not a valid IPv4 address: " ++ "300.1.1.1")).
Proof.
  apply (dyndns_invalid_ip_fatal (test_world (Ok (demo_ping "300.1.1.1")) (Ok ["5.6.7.8"]) edit_ok)
           (demo_flags "") demo_client [] (demo_ping "300.1.1.1")
           ["5.6.7.8"]).
  - left. reflexivity.
  - reflexivity.
  - reflexivity.
  - simpl. intros [H|[]]. discriminate.
  - reflexivity.
  - reflexivity.
Defined.

Lemma dyndns_edit_outcome_witness :
  doDynDNSUpdate (test_world (Ok (demo_ping "1.2.3.4")) (Ok ["5.6.7.8"]) (Err "quota"))
    (demo_flags "") demo_client [] [] =
  ([EvPost (Ping_url demo_client) (Ping_req demo_client); EvLookup "www.example.com";
    EvPost (EditAllA_url demo_client "www") (EditAllA_req demo_client "1.2.3.4")],
   Fatal ("Failed to update A record: " ++ "cannot unmarshal response: quota")).
Proof.
  apply (dyndns_edit_outcome (test_world (Ok (demo_ping "1.2.3.4")) (Ok ["5.6.7.8"]) (Err "quota"))
           (demo_flags "") demo_client [] (demo_ping "1.2.3.4")
           ["5.6.7.8"]).
  - left. reflexivity.
  - reflexivity.
  - reflexivity.
  - simpl. intros [H|[]]. discriminate.
  - reflexivity.
  - reflexivity.
Defined.

(** ** Runs of [main] *)

(** A computation only appends to the trace it is given. *)
Definition frame {A} (m : M A) : Prop :=
  forall t, m t = ((t ++ fst (m []))%list, snd (m [])).

Lemma frame_ret {A} (a : A) : frame (ret a).
Proof. intros t. unfold ret. simpl. rewrite app_nil_r. reflexivity. Qed.

Lemma frame_emit (e : Event) : frame (emit e).
Proof. intros t. reflexivity. Qed.

Lemma frame_return {A} : frame (@go_return A).
Proof. intros t. unfold go_return. simpl. rewrite app_nil_r. reflexivity. Qed.

Lemma frame_fatal {A} (msg : string) : frame (@fatalf A msg).
Proof. intros t. unfold fatalf. simpl. rewrite app_nil_r. reflexivity. Qed.

Lemma frame_bind {A B} (m : M A) (f : A -> M B) :
  frame m -> (forall a, frame (f a)) -> frame (bind m f).
Proof.
  intros Hm Hf t. unfold bind. rewrite (Hm t).
  destruct (m []) as [t1 r]. simpl.
  destruct r as [a| |msg]; simpl; try reflexivity.
  rewrite (Hf a (t ++ t1)%list), (Hf a t1). simpl. rewrite app_assoc. reflexivity.
Qed.

Lemma frame_call (m : M unit) : frame m -> frame (call m).
Proof.
  intros Hm t. unfold call. rewrite (Hm t). destruct (m []) as [t1 r].
  destruct r; reflexivity.
Qed.

Ltac frame_tac :=
  repeat match goal with
  | |- frame (bind _ _) => apply frame_bind; [|intro]
  | |- frame (ret _) => apply frame_ret
  | |- frame (emit _) => apply frame_emit
  | |- frame go_return => apply frame_return
  | |- frame (fatalf _) => apply frame_fatal
  | |- frame (if ?b then _ else _) => destruct b
  | |- frame (match ?x with _ => _ end) => destruct x
  | |- frame (let '(_, _) := ?x in _) => destruct x
  end.

Lemma doDynDNSUpdate_frame (w : World) (fl : DynFlags) (c : Client) (records : list Record) :
  frame (doDynDNSUpdate w fl c records).
Proof.
  unfold doDynDNSUpdate, Ping, EditAllA, doRequest. frame_tac.
Qed.

Lemma doPrintRecords_frame (ToUpper : string -> string) (w : World) (c : Client) (pr : string) :
  frame (doPrintRecords ToUpper w c pr).
Proof.
  unfold doPrintRecords, RetrieveAll, doRequest. frame_tac.
Qed.

Lemma doPrintRecords_trace_prefix (ToUpper : string -> string) (w : World) (c : Client)
    (pr : string) :
  exists msg, prefix_of (fst (doPrintRecords ToUpper w c pr []))
                [EvPost (RetrieveAll_url c) (RetrieveAll_req c); EvLog msg].
Proof.
  unfold doPrintRecords.
  destruct (parse_include ToUpper (Split pr ",") false []) as [ia inc].
  unfold RetrieveAll, doRequest, bind, ret, emit, fatalf. cbv beta iota.
  destruct (request_result (dec_records w) w (RetrieveAll_url c) (RetrieveAll_req c)).
  - eexists. exists []. reflexivity.
  - exists "". eexists. reflexivity.
Qed.






Lemma main_print_run (ToUpper : string -> string) (w : World) (config : ClientConfig)
    (pr : string) (dd : bool) (fl : DynFlags) :
  pr <> "" ->
  main ToUpper w config pr dd fl [] =
  let '(t1, r) := doPrintRecords ToUpper w (NewClient config true) pr [] in
  match r with
  | Continue records =>
      if dd then call (doDynDNSUpdate w fl (NewClient config true) records) t1
      else (t1, Continue tt)
  | Return => (t1, Return)
  | Fatal msg => (t1, Fatal msg)
  end.
Proof.
  intros Hpr. unfold main. apply String.eqb_neq in Hpr. rewrite Hpr.
  cbv beta iota delta [negb]. unfold bind.
  destruct (doPrintRecords ToUpper w (NewClient config true) pr []) as [t1 [recs| |msg]];
  [destruct dd|..]; reflexivity.
Qed.

(** Without -dyndns, [main] sends at most one request, the dns/retrieve POST,
    and logs at most the record listing after it: it never writes. *)
Theorem main_without_dyndns_read_only (ToUpper : string -> string) (w : World)
    (config : ClientConfig) (pr : string) (fl : DynFlags) :
  exists msg, prefix_of (fst (main ToUpper w config pr false fl []))
    [EvPost (RetrieveAll_url (NewClient config true)) (RetrieveAll_req (NewClient config true));
     EvLog msg].
Proof.
  destruct (String.eqb_spec pr "") as [->|Hpr].
  - exists "". eexists. reflexivity.
  - rewrite (main_print_run ToUpper w config pr false fl Hpr).
    destruct (doPrintRecords_trace_prefix ToUpper w (NewClient config true) pr) as (msg & Hp).
    exists msg.
    destruct (doPrintRecords ToUpper w (NewClient config true) pr []) as [t1 [recs| |m]];
    exact Hp.
Qed.

Lemma doPrintRecords_retrieve_err (ToUpper : string -> string) (w : World) (c : Client)
    (pr : string) (e : string) (t : list Event) :
  request_result (dec_records w) w (RetrieveAll_url c) (RetrieveAll_req c) = Err e ->
  doPrintRecords ToUpper w c pr t =
  ((t ++ [EvPost (RetrieveAll_url c) (RetrieveAll_req c)])%list,
   Fatal ("RetrieveAll failed: " ++ e)).
Proof.
  intros H. unfold doPrintRecords.
  destruct (parse_include ToUpper (Split pr ",") false []) as [ia inc].
  unfold RetrieveAll, doRequest, bind, ret, emit, fatalf. cbv beta iota. rewrite H.
  reflexivity.
Qed.

(** When retrieving the records fails, [doPrintRecords] has sent the
    dns/retrieve POST and stops the program with "RetrieveAll failed: " and the
    error, before logging any listing. *)
Theorem doPrintRecords_retrieve_failure (ToUpper : string -> string) (w : World) (c : Client)
    (pr : string) (e : string) (t : list Event) :
  request_result (dec_records w) w (RetrieveAll_url c) (RetrieveAll_req c) = Err e ->
  doPrintRecords ToUpper w c pr t =
  ((t ++ [EvPost (RetrieveAll_url c) (RetrieveAll_req c)])%list,
   Fatal ("RetrieveAll failed: " ++ e)).
Proof.
  apply doPrintRecords_retrieve_err.
Qed.

(** With -print set and the retrieval failing, [main] stops there: the
    dynamic DNS update does not run, whatever -dyndns says. *)
Theorem main_print_failure_stops (ToUpper : string -> string) (w : World)
    (config : ClientConfig) (pr : string) (dd : bool) (fl : DynFlags) (e : string) :
  pr <> "" ->
  request_result (dec_records w) w (RetrieveAll_url (NewClient config true))
    (RetrieveAll_req (NewClient config true)) = Err e ->
  main ToUpper w config pr dd fl [] =
  ([EvPost (RetrieveAll_url (NewClient config true)) (RetrieveAll_req (NewClient config true))],
   Fatal ("RetrieveAll failed: " ++ e)).
Proof.
  intros Hpr He. rewrite (main_print_run ToUpper w config pr dd fl Hpr).
  rewrite (doPrintRecords_retrieve_err ToUpper w _ pr e [] He). reflexivity.
Qed.

(** With -print and -dyndns both set and the retrieval succeeding, [main]
    logs the listing and then runs the dynamic DNS update on exactly the
    retrieved records; a return from the update ends the program normally. *)
Theorem main_print_then_dyndns (ToUpper : string -> string) (w : World)
    (config : ClientConfig) (pr : string) (fl : DynFlags) (resp : RecordsResponse) :
  pr <> "" ->
  request_result (dec_records w) w (RetrieveAll_url (NewClient config true))
    (RetrieveAll_req (NewClient config true)) = Ok resp ->
  main ToUpper w config pr true fl [] =
  ((fst (doPrintRecords ToUpper w (NewClient config true) pr []) ++
    fst (doDynDNSUpdate w fl (NewClient config true) (Records resp) []))%list,
   match snd (doDynDNSUpdate w fl (NewClient config true) (Records resp) []) with
   | Return => Continue tt
   | r => r
   end).
Proof.
  intros Hpr Hok. rewrite (main_print_run ToUpper w config pr true fl Hpr).
  rewrite (doPrintRecords_run ToUpper w _ pr resp [] Hok). cbv beta iota.
  rewrite (frame_call _ (doDynDNSUpdate_frame w fl _ (Records resp))). unfold call.
  destruct (doDynDNSUpdate w fl (NewClient config true) (Records resp) []) as [t2 r].
  destruct r; reflexivity.
Qed.

Definition demo_config : ClientConfig :=
  {| Domain := "example.com"; CfgKeys := {| SecretAPIKey := "sk1"; APIKey := "pk1" |} |}.

(** The API answers every POST with 500 and a body. *)
Definition down_world : World := {|
  http_post := fun _ _ =>
    HttpResponse 500 "500 Internal Server Error" {| body_bytes := "oops"; body_err := None |};
  http_get := fun _ => GetError "timeout";
  lookup_host := fun _ => Ok [];
  dec_ping := fun _ => Err "";
  dec_records := fun _ => Err "";
  dec_create := fun _ => Err "";
  dec_edit := fun _ => Err ""
|}.

Lemma doPrintRecords_retrieve_failure_witness :
  doPrintRecords ascii_ToUpper down_world demo_client "all" [] =
  ([EvPost (RetrieveAll_url demo_client) (RetrieveAll_req demo_client)],
   Fatal ("RetrieveAll failed: " ++ "response status 500 Internal Server Error. Body: oops)")).
Proof.
  apply (doPrintRecords_retrieve_failure ascii_ToUpper down_world demo_client "all"
           "response status 500 Internal Server Error. Body: oops)" []).
  reflexivity.
Defined.

Lemma main_print_failure_stops_witness :
  main ascii_ToUpper down_world demo_config "A" true (demo_flags "") [] =
  ([EvPost (RetrieveAll_url demo_client) (RetrieveAll_req demo_client)],
   Fatal ("RetrieveAll failed: " ++ "response status 500 Internal Server Error. Body: oops)")).
Proof.
  apply (main_print_failure_stops ascii_ToUpper down_world demo_config "A" true (demo_flags "")
           "response status 500 Internal Server Error. Body: oops)").
  - discriminate.
  - reflexivity.
Defined.

Lemma main_print_then_dyndns_witness :
  main ascii_ToUpper listing_world demo_config "all" true (demo_flags "") [] =
  ((fst (doPrintRecords ascii_ToUpper listing_world demo_client "all" []) ++
    fst (doDynDNSUpdate listing_world (demo_flags "") demo_client [rec_A] []))%list,
   match snd (doDynDNSUpdate listing_world (demo_flags "") demo_client [rec_A] []) with
   | Return => Continue tt
   | r => r
   end).
Proof.
  apply (main_print_then_dyndns ascii_ToUpper listing_world demo_config "all" (demo_flags "")
           {| RecordsStatus := demo_status; Records := [rec_A] |}).
  - discriminate.
  - reflexivity.
Defined.

(** Every write of a run is the editByNameType POST for the configured
    subdomain carrying the IP that ping reported, and happens only when ping
    and the DNS lookup both succeeded, the looked-up addresses do not contain
    that IP, the snapshot has no A record (fully-qualified name, IP), and the IP
    passes the IPv4 check. *)
Theorem dyndns_write_guarded (w : World) (fl : DynFlags) (c : Client) (records : list Record)
    (e : Event) :
  In e (writes (fst (doDynDNSUpdate w fl c records []))) ->
  exists p addrs,
    request_result (dec_ping w) w (Ping_url c) (Ping_req c) = Ok p /\
    lookup_host w (fqdn fl c) = Ok addrs /\
    ~ In (YourIP p) addrs /\
    recordExists records "A" (fqdn fl c) (YourIP p) = false /\
    not_ipv4 (YourIP p) = false /\
    e = EvPost (EditAllA_url c (ddSubdomain fl)) (EditAllA_req c (YourIP p)).
Proof.
  unfold fqdn, doDynDNSUpdate.
  destruct (String.eqb_spec (ddCheckURL fl) "") as [E|E]; simpl;
  [| destruct (http_get w (ddCheckURL fl)); simpl; try (intros []) ];
  unfold Ping, EditAllA, doRequest, bind, ret, emit, go_return, fatalf; simpl;
  dyn_cases; try (intros []).
  all: intros H; eexists _, _;
    split; [reflexivity|]; split; [reflexivity|];
    split; [assumption|]; split; [assumption|]; split; [assumption|].
  all: match type of H with In _ (if ?b then _ else _) => destruct b end;
    first [destruct H as [<-|[]]; reflexivity | destruct H].
Qed.

Lemma dyndns_write_guarded_witness :
  exists p addrs,
    request_result (dec_ping (test_world (Ok (demo_ping "1.2.3.4")) (Ok ["5.6.7.8"]) edit_ok))
      (test_world (Ok (demo_ping "1.2.3.4")) (Ok ["5.6.7.8"]) edit_ok)
      (Ping_url demo_client) (Ping_req demo_client) = Ok p /\
    lookup_host (test_world (Ok (demo_ping "1.2.3.4")) (Ok ["5.6.7.8"]) edit_ok)
      (fqdn (demo_flags "") demo_client) = Ok addrs /\
    ~ In (YourIP p) addrs /\
    recordExists [] "A" (fqdn (demo_flags "") demo_client) (YourIP p) = false /\
    not_ipv4 (YourIP p) = false /\
    EvPost (EditAllA_url demo_client "www") (EditAllA_req demo_client "1.2.3.4") =
    EvPost (EditAllA_url demo_client (ddSubdomain (demo_flags ""))) (EditAllA_req demo_client (YourIP p)).
Proof.
  apply (dyndns_write_guarded (test_world (Ok (demo_ping "1.2.3.4")) (Ok ["5.6.7.8"]) edit_ok)
           (demo_flags "") demo_client []
           (EvPost (EditAllA_url demo_client "www") (EditAllA_req demo_client "1.2.3.4"))).
  vm_compute. left. reflexivity.
Defined.

(** ** Reading the configuration *)






(** [net.ParseIP] reads a dotted quad a.b.c.d (octets below 256, no leading
    zeros) as the IPv4-mapped 16-byte address ::ffff:a.b.c.d, and [To4] gives
    back exactly the four octets. *)
Theorem ParseIP_dotted_quad (s : string) (a b c d : nat) :
  (a < 256 /\ b < 256 /\ c < 256 /\ d < 256)%nat ->
  list_ascii_of_string s =
    (dec_digits a ++ "."%char :: dec_digits b ++ "."%char :: dec_digits c ++ "."%char :: dec_digits d)%list ->
  GoNet.ParseIP s = Some ((repeat 0 10 ++ [255; 255; Z.of_nat a; Z.of_nat b; Z.of_nat c; Z.of_nat d])%list) /\
  GoNet.To4 ((repeat 0 10 ++ [255; 255; Z.of_nat a; Z.of_nat b; Z.of_nat c; Z.of_nat d])%list)
    = Some [Z.of_nat a; Z.of_nat b; Z.of_nat c; Z.of_nat d].
Proof.
  intros Hr Hs. split.
  - unfold GoNet.ParseIP, GoNet.ParseAddr. rewrite Hs.
    rewrite scan_field by tauto. cbn [GoNet.ParseAddr_scan Ascii.eqb Bool.eqb].
    rewrite parseIPv4_literal by exact Hr.
    reflexivity.
  - reflexivity.
Qed.

Lemma ParseIP_dotted_quad_witness :
  GoNet.ParseIP "192.168.0.1" = Some [0; 0; 0; 0; 0; 0; 0; 0; 0; 0; 255; 255; 192; 168; 0; 1] /\
  GoNet.To4 [0; 0; 0; 0; 0; 0; 0; 0; 0; 0; 255; 255; 192; 168; 0; 1] = Some [192; 168; 0; 1].
Proof.
  apply (ParseIP_dotted_quad "192.168.0.1" 192 168 0 1).
  - lia.
  - reflexivity.
Defined.



